(** * rfxcom.protocol.base: packets and packet handlers

    A shallow embedding of [rfxcom/protocol/base.py] and the properties of
    its frame validation, header parsing and loading.

    Python integers are [Z]; a [bytearray] is a list of bytes, indexing
    yields the byte's value as an integer and raises [IndexError] out
    of range; a raised exception is the [Raise] outcome of a computation.
    Every evaluation of [data[i]] is recorded, in program order, so that
    statements about which bytes a method reads can be made. *)

From Stdlib Require Import ZArith.
From Stdlib Require Strings.Byte.
From Stdlib Require Import Strings.Ascii.
From Stdlib Require Numbers.DecimalString Numbers.HexadecimalString.
From stdpp Require Import gmap strings list.

Local Open Scope Z_scope.

(** ** Python values *)

Abbreviation bytearray := (list Byte.byte).

(** The values stored in the dictionaries the parsers return. *)
Inductive pyval : Type :=
| PyNone
| PyInt (z : Z)
| PyStr (s : string)
| PyBytes (b : bytearray).

(** A dictionary with string keys, as returned by [parse]. *)
Abbreviation pydict := (gmap string pyval).

(** [PACKET_TYPES] and [PACKET_SUBTYPES]: dictionaries from integer codes
    to names. Python iterates a dict in insertion order and the error
    messages below print the keys in that order, so the entries are kept as
    a list; a Python dict holds every key once, and on such lists the
    first-match lookups below are the dict's own. *)
Definition table := list (Z * string).

(** [k in d] *)
Definition dict_contains (k : Z) (d : table) : bool :=
  existsb (fun kv => Z.eqb kv.1 k) d.

(** [d.get(k)]: the value, or [None] *)
Fixpoint dict_get (k : Z) (d : table) : option string :=
  match d with
  | [] => None
  | (k', v) :: d' => if Z.eqb k' k then Some v else dict_get k d'
  end.

(** [for k in d] *)
Definition dict_keys (d : table) : list Z := map fst d.

(** Truth value of a dict: non-empty. *)
Definition dict_truthy (d : table) : bool :=
  match d with [] => false | _ => true end.

(** [d.get(k)] as a Python value. *)
Definition get_value (k : Z) (d : table) : pyval :=
  match dict_get k d with
  | Some name => PyStr name
  | None => PyNone
  end.

(** [len(data)] *)
Definition len (data : bytearray) : Z := Z.of_nat (length data).

(** The integer a byte stands for, [0..255]. *)
Definition byte_value (b : Byte.byte) : Z := Z.of_N (Byte.to_N b).

(** ** String formatting *)

(** ["%s" % n] for an integer. *)
Definition str (n : Z) : string :=
  DecimalString.NilZero.string_of_int (Z.to_int n).

(** ["{:02x}".format(n)]: lower-case hexadecimal, zero-filled to width 2
    (a negative number already has width 2 with its sign). *)
Definition format_02x (n : Z) : string :=
  let s := HexadecimalString.NilZero.string_of_int (Z.to_hex_int n) in
  if (String.length s <? 2)%nat then "0" +:+ s else s.

(** [",".join("0x{:02x}".format(pt) for pt in d)] *)
Definition join_types (d : table) : string :=
  String.concat "," (map (fun pt => "0x" +:+ format_02x pt) (dict_keys d)).

(** [s.upper()] on a string of ASCII characters: the letters [a] to [z]
    become [A] to [Z], every other character stays. *)
Definition upper_ascii (c : Ascii.ascii) : Ascii.ascii :=
  let n := Ascii.N_of_ascii c in
  if ((97 <=? n) && (n <=? 122))%N then Ascii.ascii_of_N (n - 32) else c.

Fixpoint upper (s : string) : string :=
  match s with
  | EmptyString => EmptyString
  | String c s' => String (upper_ascii c) (upper s')
  end.

(** ** Exceptions *)

(** The exceptions this module can raise: the four of
    [rfxcom.exceptions] with their message, and the two built-in ones. *)
Inductive exn : Type :=
| InvalidPacketLength (msg : string)
| MalformedPacket (msg : string)
| UnknownPacketType (msg : string)
| UnknownPacketSubtype (msg : string)
| IndexError
| NotImplementedError.

(** Modelled from the spec: [rfxcom/exceptions.py] is not part of the
    sources at hand. The error taxonomy has four kinds, and they are the
    ones an [except RFXComException] clause catches. *)
Definition is_RFXComException (e : exn) : bool :=
  match e with
  | InvalidPacketLength _ | MalformedPacket _
  | UnknownPacketType _ | UnknownPacketSubtype _ => true
  | IndexError | NotImplementedError => false
  end.

(** ** Computations *)

Inductive result (A : Type) : Type :=
| Ok (a : A)
| Raise (e : exn).
Arguments Ok {A} a.
Arguments Raise {A} e.

(** A computation yields the indices at which it evaluated [data[i]], in
    order, and how it ended. *)
Definition Py (A : Type) : Type := list nat * result A.

Definition reads {A} (m : Py A) : list nat := m.1.
Definition outcome {A} (m : Py A) : result A := m.2.

Definition ret {A} (a : A) : Py A := ([], Ok a).
Definition raise {A} (e : exn) : Py A := ([], Raise e).

Definition bind {A B} (m : Py A) (k : A -> Py B) : Py B :=
  match m.2 with
  | Ok a => (m.1 ++ (k a).1, (k a).2)
  | Raise e => (m.1, Raise e)
  end.

Notation "'let*' x ':=' m 'in' k" := (bind m (fun x => k))
  (at level 10, x name, m at level 100, k at level 200,
   format "'[v' 'let*'  x  ':='  m  'in' '/' k ']'").

(** [data[i]] for a constant, non-negative [i]. *)
Definition getitem (data : bytearray) (i : nat) : Py Z :=
  ([i], match data !! i with
        | Some b => Ok (byte_value b)
        | None => Raise IndexError
        end).

(** [try: m  except RFXComException: return False] *)
Definition except_RFXComException (m : Py bool) : Py bool :=
  match m.2 with
  | Ok b => m
  | Raise e => if is_RFXComException e then (m.1, Ok false) else m
  end.

(** ** The packet objects *)

(** The attributes of a packet object. [loaded_at], [raw] and [data] do
    not exist until [load] sets them. *)
Record handler : Type := {
  PACKET_TYPES : table;
  PACKET_SUBTYPES : table;
  loaded_at : option Z;
  raw : option bytearray;
  data : option pydict
}.

(** A class deriving from [BasePacket] is known by its [parse] method,
    which reads the object and the bytes. *)
Record PacketClass : Type :=
  { method_parse : handler -> bytearray -> Py pydict }.

(** Attribute assignments [self.loaded_at = v], [self.raw = v] and
    [self.data = v]. *)
Definition set_loaded_at (self : handler) (v : Z) : handler :=
  {| PACKET_TYPES := PACKET_TYPES self; PACKET_SUBTYPES := PACKET_SUBTYPES self;
     loaded_at := Some v; raw := raw self; data := data self |}.

Definition set_raw (self : handler) (v : bytearray) : handler :=
  {| PACKET_TYPES := PACKET_TYPES self; PACKET_SUBTYPES := PACKET_SUBTYPES self;
     loaded_at := loaded_at self; raw := Some v; data := data self |}.

Definition set_data (self : handler) (v : pydict) : handler :=
  {| PACKET_TYPES := PACKET_TYPES self; PACKET_SUBTYPES := PACKET_SUBTYPES self;
     loaded_at := loaded_at self; raw := raw self; data := Some v |}.

Module BasePacket.

(** [__init__], but for the logger. *)
Definition init : handler :=
  {| PACKET_TYPES := []; PACKET_SUBTYPES := [];
     loaded_at := None; raw := None; data := None |}.

(** [dump_hex]: the bytes are iterated over, not indexed, and nothing
    can be raised. [upper] applies to the joined digits, not to the
    prefix. *)
Definition dump_hex (self : handler) (data : bytearray) : string :=
  "0x" +:+ upper (String.concat ""
                    (map (fun x => format_02x (byte_value x)) data)).

Definition parse (self : handler) (data : bytearray) : Py pydict :=
  raise NotImplementedError.

Definition parse_header_part (self : handler) (data : bytearray) : Py pydict :=
  let* packet_length := getitem data 0 in
  let* packet_type := getitem data 1 in
  let* packet_subtype := getitem data 2 in
  let* sequence_number := getitem data 3 in
  ret (<["packet_length" := PyInt packet_length]>
       (<["packet_type" := PyInt packet_type]>
       (<["packet_type_name" := get_value packet_type (PACKET_TYPES self)]>
       (<["packet_subtype" := PyInt packet_subtype]>
       (<["packet_subtype_name" := get_value packet_subtype (PACKET_SUBTYPES self)]>
       (<["sequence_number" := PyInt sequence_number]> ∅)))))).

(** [load]: [now] is what [datetime.utcnow()] returns. The object is
    returned as the call leaves it, also when [parse] raises: the
    assignment to [self.data] is then not reached. *)
Definition load (cls : PacketClass) (now : Z) (self : handler)
    (data : bytearray) : handler * Py pydict :=
  let self := set_loaded_at self now in
  let self := set_raw self data in
  let r := method_parse cls self data in
  match r.2 with
  | Ok d => (set_data self d, r)
  | Raise e => (self, r)
  end.

End BasePacket.

Module BasePacketHandler.

Definition validate_packet (self : handler) (data : bytearray) : Py bool :=
  let* first := getitem data 0 in
  let expected_length := first + 1 in
  if negb (len data =? expected_length) then
    raise (InvalidPacketLength
             ("Expected packet length to be " +:+ str expected_length
              +:+ " bytes but it was " +:+ str (len data) +:+ " bytes"))
  else if expected_length <? 4 then
    raise (MalformedPacket
             ("Expected packet length to be larger than 4 bytes but "
              +:+ "                    it was " +:+ str (len data)
              +:+ " bytes"))
  else
    let* packet_type := getitem data 1 in
    if dict_truthy (PACKET_TYPES self)
       && negb (dict_contains packet_type (PACKET_TYPES self)) then
      let types := join_types (PACKET_TYPES self) in
      raise (UnknownPacketType
               ("Expected packet type to be one of [" +:+ types
                +:+ "] but recieved " +:+ str packet_type))
    else
      let* sub_type := getitem data 2 in
      if dict_truthy (PACKET_SUBTYPES self)
         && negb (dict_contains sub_type (PACKET_SUBTYPES self)) then
        let types := join_types (PACKET_SUBTYPES self) in
        raise (UnknownPacketSubtype
                 ("Expected packet type to be one of [" +:+ types
                  +:+ "] but recieved " +:+ str sub_type))
      else
        ret true.

Definition can_handle (self : handler) (data : bytearray) : Py bool :=
  except_RFXComException (validate_packet self data).

End BasePacketHandler.

Module Packet.

Definition can_handle (self : handler) (data : bytearray) : Py bool :=
  ret true.

Definition parse (self : handler) (data : bytearray) : Py pydict :=
  let* packet_length := getitem data 0 in
  let* packet_type := getitem data 1 in
  let* sub_type := getitem data 2 in
  ret (<["packet_length" := PyInt packet_length]>
       (<["packet_type" := PyInt packet_type]>
       (<["packet_subtype" := PyInt sub_type]>
       (<["packet" := PyBytes data]> ∅)))).

End Packet.

(** The classes of the module: [BasePacket] and [BasePacketHandler] have
    the stub [parse], [Packet] its own. *)
Definition BasePacket_class : PacketClass :=
  {| method_parse := BasePacket.parse |}.
Definition BasePacketHandler_class : PacketClass :=
  {| method_parse := BasePacket.parse |}.
Definition Packet_class : PacketClass :=
  {| method_parse := Packet.parse |}.

(** A handler object with the given tables, before any [load]. *)
Definition new_handler (types subtypes : table) : handler :=
  {| PACKET_TYPES := types; PACKET_SUBTYPES := subtypes;
     loaded_at := None; raw := None; data := None |}.

(** ** Reading a dump back *)

(** The value of an upper-case hexadecimal digit. *)
Definition hex_digit_value (c : Ascii.ascii) : option N :=
  let n := Ascii.N_of_ascii c in
  if ((48 <=? n) && (n <=? 57))%N then Some (n - 48)%N
  else if ((65 <=? n) && (n <=? 70))%N then Some (n - 55)%N
  else None.

(** The byte two upper-case hexadecimal digits stand for. *)
Definition byte_of_digits (c1 c2 : Ascii.ascii) : option Byte.byte :=
  match hex_digit_value c1, hex_digit_value c2 with
  | Some hi, Some lo => Byte.of_N (16 * hi + lo)
  | _, _ => None
  end.

(** The bytes a string of pairs of upper-case hexadecimal digits stands
    for. *)
Fixpoint bytes_of_digits (s : string) : option bytearray :=
  match s with
  | EmptyString => Some []
  | String c1 (String c2 rest) =>
      match byte_of_digits c1 c2, bytes_of_digits rest with
      | Some b, Some bs => Some (b :: bs)
      | _, _ => None
      end
  | String _ EmptyString => None
  end.

(** The reader of what [dump_hex] writes: the prefix, then the digits. *)
Definition read_hex (s : string) : option bytearray :=
  match s with
  | String "0"%char (String "x"%char digits) => bytes_of_digits digits
  | _ => None
  end.

(** ** Loading twice *)

(** Two objects have the same tables. *)
Definition same_tables (h1 h2 : handler) : Prop :=
  PACKET_TYPES h1 = PACKET_TYPES h2 /\ PACKET_SUBTYPES h1 = PACKET_SUBTYPES h2.

(** Two objects agree on every attribute but [loaded_at]. *)
Definition same_content (h1 h2 : handler) : Prop :=
  same_tables h1 h2 /\ raw h1 = raw h2 /\ data h1 = data h2.

(** A class whose [parse] reads nothing of the object but its tables. *)
Definition reads_tables_only (cls : PacketClass) : Prop :=
  forall (h1 h2 : handler) (f : bytearray),
    same_tables h1 h2 -> method_parse cls h1 f = method_parse cls h2 f.

(** ** Basic facts *)

(** Every index of a list of reads is within the frame. *)
Ltac in_bounds :=
  repeat (apply List.Forall_cons; [cbn [length] in *; lia|]);
  apply List.Forall_nil.

Lemma byte_value_range (b : Byte.byte) : 0 <= byte_value b < 256.
Proof.
  unfold byte_value. pose proof (Byte.to_N_bounded b). lia.
Qed.

Lemma dict_contains_keys (k : Z) (d : table) :
  dict_contains k d = true <-> k ∈ dict_keys d.
Proof.
  unfold dict_contains, dict_keys. induction d as [|[k' v] d IH]; simpl.
  - split; [discriminate | intros H; inversion H].
  - rewrite orb_true_iff, IH, elem_of_cons, Z.eqb_eq. intuition congruence.
Qed.

Lemma dict_contains_not_keys (k : Z) (d : table) :
  dict_contains k d = false <-> k ∉ dict_keys d.
Proof.
  rewrite <- dict_contains_keys. destruct (dict_contains k d); intuition congruence.
Qed.

Lemma dict_truthy_nonempty (d : table) : dict_truthy d = true <-> d ≠ [].
Proof. destruct d; simpl; intuition congruence. Qed.

Lemma dict_get_keys (k : Z) (d : table) :
  is_Some (dict_get k d) <-> k ∈ dict_keys d.
Proof.
  unfold dict_keys. induction d as [|[k' v] d IH]; simpl.
  - split; [intros [? ?]; discriminate | intros H; inversion H].
  - rewrite elem_of_cons. destruct (Z.eqb_spec k' k) as [->|Hne].
    + split; [auto | eauto].
    + rewrite IH. intuition congruence.
Qed.

Lemma get_value_present (k : Z) (d : table) (name : string) :
  dict_get k d = Some name -> get_value k d = PyStr name.
Proof. unfold get_value. now intros ->. Qed.

Lemma get_value_absent (k : Z) (d : table) :
  k ∉ dict_keys d -> get_value k d = PyNone.
Proof.
  intros Hk. unfold get_value. destruct (dict_get k d) eqn:E; [|reflexivity].
  exfalso. apply Hk, dict_get_keys. eauto.
Qed.

Lemma getitem_Some (f : bytearray) (i : nat) (b : Byte.byte) :
  f !! i = Some b -> getitem f i = ([i], Ok (byte_value b)).
Proof. unfold getitem. now intros ->. Qed.

Lemma bind_Ok {A B} (t : list nat) (a : A) (k : A -> Py B) :
  bind (t, Ok a) k = (t ++ (k a).1, (k a).2).
Proof. reflexivity. Qed.

Lemma len_lookup (f : bytearray) (i : nat) :
  Z.of_nat i < len f -> is_Some (f !! i).
Proof. unfold len. intros H. apply lookup_lt_is_Some. lia. Qed.

(** *** The four ways [validate_packet] ends on a non-empty frame *)

Section Validate.
Import BasePacketHandler.
Variables (self : handler) (f : bytearray) (b0 : Byte.byte).
Hypothesis Hb0 : f !! 0%nat = Some b0.

Lemma validate_wrong_length :
  len f ≠ byte_value b0 + 1 ->
  validate_packet self f =
    ([0%nat],
     Raise (InvalidPacketLength
              ("Expected packet length to be " +:+ str (byte_value b0 + 1)
               +:+ " bytes but it was " +:+ str (len f) +:+ " bytes"))).
Proof.
  intros Hlen. unfold validate_packet.
  rewrite (getitem_Some _ _ _ Hb0), bind_Ok.
  destruct (Z.eqb_spec (len f) (byte_value b0 + 1)); [contradiction|].
  reflexivity.
Qed.

Lemma validate_too_short :
  len f = byte_value b0 + 1 -> byte_value b0 + 1 < 4 ->
  validate_packet self f =
    ([0%nat],
     Raise (MalformedPacket
              ("Expected packet length to be larger than 4 bytes but "
               +:+ "                    it was " +:+ str (len f)
               +:+ " bytes"))).
Proof.
  intros Hlen Hshort. unfold validate_packet.
  rewrite (getitem_Some _ _ _ Hb0), bind_Ok.
  destruct (Z.eqb_spec (len f) (byte_value b0 + 1)); [|contradiction].
  destruct (Z.ltb_spec (byte_value b0 + 1) 4); [|lia].
  reflexivity.
Qed.

(** Past the two length checks, what is left are the table checks. *)
Lemma validate_tables (b1 : Byte.byte) :
  f !! 1%nat = Some b1 ->
  len f = byte_value b0 + 1 -> 4 <= len f ->
  validate_packet self f =
    if dict_truthy (PACKET_TYPES self)
       && negb (dict_contains (byte_value b1) (PACKET_TYPES self)) then
      ([0%nat; 1%nat],
       Raise (UnknownPacketType
                ("Expected packet type to be one of ["
                 +:+ join_types (PACKET_TYPES self)
                 +:+ "] but recieved " +:+ str (byte_value b1))))
    else
      match f !! 2%nat with
      | Some b2 =>
          if dict_truthy (PACKET_SUBTYPES self)
             && negb (dict_contains (byte_value b2) (PACKET_SUBTYPES self)) then
            ([0%nat; 1%nat; 2%nat],
             Raise (UnknownPacketSubtype
                      ("Expected packet type to be one of ["
                       +:+ join_types (PACKET_SUBTYPES self)
                       +:+ "] but recieved " +:+ str (byte_value b2))))
          else ([0%nat; 1%nat; 2%nat], Ok true)
      | None => ([0%nat; 1%nat; 2%nat], Raise IndexError)
      end.
Proof.
  intros Hb1 Hlen Hmin. unfold validate_packet.
  rewrite (getitem_Some _ _ _ Hb0), bind_Ok.
  destruct (Z.eqb_spec (len f) (byte_value b0 + 1)); [|contradiction].
  destruct (Z.ltb_spec (byte_value b0 + 1) 4); [lia|].
  cbn [negb]. rewrite (getitem_Some _ _ _ Hb1), bind_Ok.
  destruct (dict_truthy (PACKET_TYPES self)
            && negb (dict_contains (byte_value b1) (PACKET_TYPES self)));
    [reflexivity|].
  unfold getitem. destruct (f !! 2%nat) as [b2|]; [|reflexivity].
  rewrite bind_Ok.
  destruct (dict_truthy (PACKET_SUBTYPES self)
            && negb (dict_contains (byte_value b2) (PACKET_SUBTYPES self)));
    reflexivity.
Qed.

End Validate.

(** What [validate_packet] can end with: [True], one of the four
    exceptions of the package, or [IndexError], the last on the empty
    frame only. *)
Lemma validate_packet_outcomes (self : handler) (f : bytearray) :
  match outcome (BasePacketHandler.validate_packet self f) with
  | Ok b => b = true
  | Raise e => if is_RFXComException e then f ≠ [] else f = [] /\ e = IndexError
  end.
Proof.
  destruct f as [|b0 rest]; [simpl; auto|].
  assert (H0 : (b0 :: rest) !! 0%nat = Some b0) by reflexivity.
  destruct (Z.eq_dec (len (b0 :: rest)) (byte_value b0 + 1)) as [Hlen|Hlen];
    [|rewrite (validate_wrong_length _ _ _ H0 Hlen); simpl; congruence].
  destruct (Z.lt_ge_cases (byte_value b0 + 1) 4) as [Hs|Hs];
    [rewrite (validate_too_short _ _ _ H0 Hlen Hs); simpl; congruence|].
  destruct (len_lookup (b0 :: rest) 1) as [b1 H1]; [lia|].
  destruct (len_lookup (b0 :: rest) 2) as [b2 H2]; [lia|].
  rewrite (validate_tables _ _ _ H0 b1 H1 Hlen) by lia. rewrite H2.
  repeat match goal with |- context [if ?c then _ else _] => destruct c end;
    simpl; congruence.
Qed.

(** ** Validation *)

(** C1. A frame whose length is its first byte plus one and at least 4,
    whose type byte is a key of the type table unless that table is empty,
    and whose subtype byte is a key of the subtype table unless that table
    is empty, is accepted: [validate_packet] returns [True]. With both
    tables empty every frame passing the two length checks is accepted. *)
Theorem validate_packet_accepts (self : handler) (f : bytearray)
    (b0 b1 b2 : Byte.byte) :
  f !! 0%nat = Some b0 -> f !! 1%nat = Some b1 -> f !! 2%nat = Some b2 ->
  len f = byte_value b0 + 1 -> 4 <= len f ->
  ((PACKET_TYPES self ≠ [] -> byte_value b1 ∈ dict_keys (PACKET_TYPES self)) ->
   (PACKET_SUBTYPES self ≠ [] ->
    byte_value b2 ∈ dict_keys (PACKET_SUBTYPES self)) ->
   outcome (BasePacketHandler.validate_packet self f) = Ok true)
  /\ (PACKET_TYPES self = [] -> PACKET_SUBTYPES self = [] ->
      outcome (BasePacketHandler.validate_packet self f) = Ok true).
Proof.
  intros H0 H1 H2 Hlen Hmin.
  rewrite (validate_tables _ _ _ H0 b1 H1 Hlen Hmin), H2.
  split.
  - intros Ht Hs.
    destruct (dict_truthy (PACKET_TYPES self)) eqn:Et; cbn [andb].
    + apply dict_truthy_nonempty, Ht, dict_contains_keys in Et. rewrite Et.
      cbn [negb].
      destruct (dict_truthy (PACKET_SUBTYPES self)) eqn:Es; cbn [andb];
        [|reflexivity].
      apply dict_truthy_nonempty, Hs, dict_contains_keys in Es. now rewrite Es.
    + destruct (dict_truthy (PACKET_SUBTYPES self)) eqn:Es; cbn [andb];
        [|reflexivity].
      apply dict_truthy_nonempty, Hs, dict_contains_keys in Es. now rewrite Es.
  - intros -> ->. reflexivity.
Qed.

Lemma validate_packet_accepts_witness :
  outcome (BasePacketHandler.validate_packet
             (new_handler [(32, "Security1")] [(1, "X10 security")])
             [Byte.x07; Byte.x20; Byte.x01; Byte.x05;
              Byte.x00; Byte.x00; Byte.x00; Byte.x00]) = Ok true.
Proof.
  refine (proj1 (validate_packet_accepts
            (new_handler [(32, "Security1")] [(1, "X10 security")])
            [Byte.x07; Byte.x20; Byte.x01; Byte.x05;
             Byte.x00; Byte.x00; Byte.x00; Byte.x00]
            Byte.x07 Byte.x20 Byte.x01 _ _ _ _ _) _ _).
  - reflexivity.
  - reflexivity.
  - reflexivity.
  - reflexivity.
  - vm_compute. discriminate.
  - intros _. apply dict_contains_keys. reflexivity.
  - intros _. apply dict_contains_keys. reflexivity.
Defined.

(** C2. On a non-empty frame whose length differs from its first byte plus
    one, [validate_packet] raises [InvalidPacketLength]; the message gives
    the expected length, first byte plus one, and the actual length. It is
    the first check: byte 0 is all that has been read, and neither the
    tables nor the minimal length matter. *)
Theorem validate_packet_invalid_length (self : handler) (f : bytearray)
    (b0 : Byte.byte) :
  f !! 0%nat = Some b0 -> len f ≠ byte_value b0 + 1 ->
  outcome (BasePacketHandler.validate_packet self f) =
    Raise (InvalidPacketLength
             ("Expected packet length to be " +:+ str (byte_value b0 + 1)
              +:+ " bytes but it was " +:+ str (len f) +:+ " bytes"))
  /\ reads (BasePacketHandler.validate_packet self f) = [0%nat].
Proof.
  intros H0 Hlen. now rewrite (validate_wrong_length _ _ _ H0 Hlen).
Qed.

Lemma validate_packet_invalid_length_witness :
  outcome (BasePacketHandler.validate_packet
             (new_handler [(32, "Security1")] [])
             [Byte.x01; Byte.x10; Byte.x02; Byte.xff]) =
    Raise (InvalidPacketLength
             "Expected packet length to be 2 bytes but it was 4 bytes")
  /\ reads (BasePacketHandler.validate_packet
              (new_handler [(32, "Security1")] [])
              [Byte.x01; Byte.x10; Byte.x02; Byte.xff]) = [0%nat].
Proof.
  apply (validate_packet_invalid_length
           (new_handler [(32, "Security1")] [])
           [Byte.x01; Byte.x10; Byte.x02; Byte.xff] Byte.x01).
  - reflexivity.
  - vm_compute. discriminate.
Defined.

(** C3. On a frame whose first byte plus one is below 4,
    [validate_packet] raises [MalformedPacket] when the frame's length is
    that first byte plus one, and [InvalidPacketLength] when it is not.
    On any frame, [MalformedPacket] is raised only after the length check
    has passed, so only on frames that are themselves shorter than 4. *)
Theorem validate_packet_malformed (self : handler) (f : bytearray)
    (b0 : Byte.byte) :
  f !! 0%nat = Some b0 ->
  (byte_value b0 + 1 < 4 -> len f = byte_value b0 + 1 ->
   outcome (BasePacketHandler.validate_packet self f) =
     Raise (MalformedPacket
              ("Expected packet length to be larger than 4 bytes but "
               +:+ "                    it was " +:+ str (len f)
               +:+ " bytes")))
  /\ (byte_value b0 + 1 < 4 -> len f ≠ byte_value b0 + 1 ->
      outcome (BasePacketHandler.validate_packet self f) =
        Raise (InvalidPacketLength
                 ("Expected packet length to be " +:+ str (byte_value b0 + 1)
                  +:+ " bytes but it was " +:+ str (len f) +:+ " bytes")))
  /\ (forall msg,
        outcome (BasePacketHandler.validate_packet self f) =
          Raise (MalformedPacket msg) ->
        len f = byte_value b0 + 1 /\ len f < 4).
Proof.
  intros H0. split; [|split].
  - intros Hs Hlen. now rewrite (validate_too_short _ _ _ H0 Hlen Hs).
  - intros _ Hlen. now rewrite (validate_wrong_length _ _ _ H0 Hlen).
  - intros msg.
    destruct (Z.eq_dec (len f) (byte_value b0 + 1)) as [Hlen|Hlen];
      [|rewrite (validate_wrong_length _ _ _ H0 Hlen); discriminate].
    destruct (Z.lt_ge_cases (byte_value b0 + 1) 4) as [Hs|Hs]; [lia|].
    destruct (len_lookup f 1) as [b1 H1]; [lia|].
    rewrite (validate_tables _ _ _ H0 b1 H1 Hlen) by lia.
    destruct (f !! 2%nat);
      repeat match goal with |- context [if ?c then _ else _] => destruct c end;
      discriminate.
Qed.

Lemma validate_packet_malformed_witness :
  outcome (BasePacketHandler.validate_packet BasePacket.init
             [Byte.x02; Byte.x20; Byte.x01]) =
    Raise (MalformedPacket
             "Expected packet length to be larger than 4 bytes but                     it was 3 bytes").
Proof.
  refine (proj1 (validate_packet_malformed BasePacket.init
                   [Byte.x02; Byte.x20; Byte.x01] Byte.x02 _) _ _).
  - reflexivity.
  - vm_compute. reflexivity.
  - reflexivity.
Defined.

(** C4. On a frame passing both length checks, a handler with a non-empty
    type table that lacks the frame's type byte raises [UnknownPacketType],
    the message listing the table's codes and giving the byte received,
    and [can_handle] returns [False]. When the type check passes, a
    non-empty subtype table that lacks the subtype byte raises
    [UnknownPacketSubtype] in the same way. *)
Theorem validate_packet_unknown_type (self : handler) (f : bytearray)
    (b0 b1 b2 : Byte.byte) :
  f !! 0%nat = Some b0 -> f !! 1%nat = Some b1 -> f !! 2%nat = Some b2 ->
  len f = byte_value b0 + 1 -> 4 <= len f ->
  (PACKET_TYPES self ≠ [] -> byte_value b1 ∉ dict_keys (PACKET_TYPES self) ->
   outcome (BasePacketHandler.validate_packet self f) =
     Raise (UnknownPacketType
              ("Expected packet type to be one of ["
               +:+ join_types (PACKET_TYPES self)
               +:+ "] but recieved " +:+ str (byte_value b1)))
   /\ outcome (BasePacketHandler.can_handle self f) = Ok false)
  /\ ((PACKET_TYPES self = [] \/ byte_value b1 ∈ dict_keys (PACKET_TYPES self)) ->
      PACKET_SUBTYPES self ≠ [] ->
      byte_value b2 ∉ dict_keys (PACKET_SUBTYPES self) ->
      outcome (BasePacketHandler.validate_packet self f) =
        Raise (UnknownPacketSubtype
                 ("Expected packet type to be one of ["
                  +:+ join_types (PACKET_SUBTYPES self)
                  +:+ "] but recieved " +:+ str (byte_value b2)))
      /\ outcome (BasePacketHandler.can_handle self f) = Ok false).
Proof.
  intros H0 H1 H2 Hlen Hmin. unfold BasePacketHandler.can_handle.
  rewrite (validate_tables _ _ _ H0 b1 H1 Hlen Hmin), H2. split.
  - intros Ht Hk.
    apply dict_truthy_nonempty in Ht. apply dict_contains_not_keys in Hk.
    rewrite Ht, Hk. split; reflexivity.
  - intros Ht Hs Hk.
    assert (dict_truthy (PACKET_TYPES self)
            && negb (dict_contains (byte_value b1) (PACKET_TYPES self)) = false)
      as ->.
    { destruct Ht as [->|Ht]; [reflexivity|].
      apply dict_contains_keys in Ht. rewrite Ht. apply andb_false_r. }
    apply dict_truthy_nonempty in Hs. apply dict_contains_not_keys in Hk.
    rewrite Hs, Hk. split; reflexivity.
Qed.

Lemma validate_packet_unknown_type_witness :
  outcome (BasePacketHandler.validate_packet
             (new_handler [(32, "Security1"); (82, "Temperature and humidity")] [])
             [Byte.x03; Byte.x10; Byte.x02; Byte.xff]) =
    Raise (UnknownPacketType
             "Expected packet type to be one of [0x20,0x52] but recieved 16")
  /\ outcome (BasePacketHandler.can_handle
                (new_handler [(32, "Security1"); (82, "Temperature and humidity")] [])
                [Byte.x03; Byte.x10; Byte.x02; Byte.xff]) = Ok false.
Proof.
  refine (proj1 (validate_packet_unknown_type
            (new_handler [(32, "Security1"); (82, "Temperature and humidity")] [])
            [Byte.x03; Byte.x10; Byte.x02; Byte.xff]
            Byte.x03 Byte.x10 Byte.x02 _ _ _ _ _) _ _).
  - reflexivity.
  - reflexivity.
  - reflexivity.
  - reflexivity.
  - vm_compute. discriminate.
  - discriminate.
  - apply dict_contains_not_keys. reflexivity.
Defined.

(** ** [can_handle] *)

(** C5. [can_handle] returns [True] exactly when [validate_packet] does;
    it returns [False] when [validate_packet] raises
    [InvalidPacketLength], [MalformedPacket], [UnknownPacketType] or
    [UnknownPacketSubtype]; any other exception leaves [can_handle] as it
    was raised, which is what the [IndexError] of the empty frame does. *)
Theorem can_handle_validate_packet (self : handler) (f : bytearray) :
  (outcome (BasePacketHandler.can_handle self f) = Ok true <->
   outcome (BasePacketHandler.validate_packet self f) = Ok true)
  /\ (forall e,
        outcome (BasePacketHandler.validate_packet self f) = Raise e ->
        (exists msg, e = InvalidPacketLength msg \/ e = MalformedPacket msg
                     \/ e = UnknownPacketType msg \/ e = UnknownPacketSubtype msg) ->
        outcome (BasePacketHandler.can_handle self f) = Ok false)
  /\ (forall e,
        outcome (BasePacketHandler.validate_packet self f) = Raise e ->
        ~ (exists msg, e = InvalidPacketLength msg \/ e = MalformedPacket msg
                       \/ e = UnknownPacketType msg \/ e = UnknownPacketSubtype msg) ->
        outcome (BasePacketHandler.can_handle self f) = Raise e)
  /\ (forall e,
        outcome (BasePacketHandler.can_handle self f) = Raise e <->
        f = [] /\ e = IndexError)
  /\ outcome (BasePacketHandler.can_handle self []) = Raise IndexError.
Proof.
  pose proof (validate_packet_outcomes self f) as Hv.
  unfold BasePacketHandler.can_handle, except_RFXComException, outcome in *.
  destruct (BasePacketHandler.validate_packet self f) as [t [b|e]] eqn:E;
    cbn [fst snd] in *.
  - subst b. split; [tauto|].
    split; [intros e; discriminate|].
    split; [intros e; discriminate|].
    split; [|reflexivity].
    intros e. split; [discriminate|]. intros [-> ->]. discriminate E.
  - split; [|split; [|split; [|split]]].
    + destruct (is_RFXComException e); cbn [snd]; split; discriminate.
    + intros e' [= <-] [msg [-> | [-> | [-> | ->]]]]; reflexivity.
    + intros e' [= <-] Hn.
      destruct e; try reflexivity; exfalso; apply Hn; eauto 6.
    + intros e'. destruct (is_RFXComException e) eqn:Ee; cbn [snd].
      * split; [discriminate|]. intros [-> _]. contradiction.
      * destruct Hv as [-> ->]. split; [intros [= <-]; auto|].
        intros [_ ->]. reflexivity.
    + reflexivity.
Qed.

(** ** The common header *)

(** C6. On a frame of at least four bytes [parse_header_part] returns a
    dictionary of six entries: [packet_length], [packet_type],
    [packet_subtype] and [sequence_number] are bytes 0 to 3;
    [packet_type_name] is the type table's name for byte 1 and [None]
    when the table has none, [packet_subtype_name] likewise for byte 2 in
    the subtype table. A code without a name is not an error. On a frame
    starting 0x07, 0x20, 0x01, 0x05 the four numbers are 7, 0x20, 0x01
    and 0x05. *)
Theorem parse_header_part_fields (self : handler) (b0 b1 b2 b3 : Byte.byte)
    (rest : bytearray) :
  (exists d : pydict,
     outcome (BasePacket.parse_header_part self (b0 :: b1 :: b2 :: b3 :: rest))
       = Ok d
     /\ d !! "packet_length" = Some (PyInt (byte_value b0))
     /\ d !! "packet_type" = Some (PyInt (byte_value b1))
     /\ d !! "packet_subtype" = Some (PyInt (byte_value b2))
     /\ d !! "sequence_number" = Some (PyInt (byte_value b3))
     /\ (forall name, dict_get (byte_value b1) (PACKET_TYPES self) = Some name ->
           d !! "packet_type_name" = Some (PyStr name))
     /\ (byte_value b1 ∉ dict_keys (PACKET_TYPES self) ->
           d !! "packet_type_name" = Some PyNone)
     /\ (forall name, dict_get (byte_value b2) (PACKET_SUBTYPES self) = Some name ->
           d !! "packet_subtype_name" = Some (PyStr name))
     /\ (byte_value b2 ∉ dict_keys (PACKET_SUBTYPES self) ->
           d !! "packet_subtype_name" = Some PyNone)
     /\ dom d = {[ "packet_length"; "packet_type"; "packet_type_name";
                   "packet_subtype"; "packet_subtype_name";
                   "sequence_number" ]})
  /\ (exists d : pydict,
        outcome (BasePacket.parse_header_part self
                   (Byte.x07 :: Byte.x20 :: Byte.x01 :: Byte.x05 :: rest))
          = Ok d
        /\ d !! "packet_length" = Some (PyInt 7)
        /\ d !! "packet_type" = Some (PyInt 32)
        /\ d !! "packet_subtype" = Some (PyInt 1)
        /\ d !! "sequence_number" = Some (PyInt 5)
        /\ d !! "packet_type_name" = Some (get_value 32 (PACKET_TYPES self))
        /\ d !! "packet_subtype_name"
           = Some (get_value 1 (PACKET_SUBTYPES self))).
Proof.
  split.
  - eexists. split; [reflexivity|].
    repeat split.
    + intros name Hn. rewrite (get_value_present _ _ _ Hn). reflexivity.
    + intros Hk. rewrite (get_value_absent _ _ Hk). reflexivity.
    + intros name Hn. rewrite (get_value_present _ _ _ Hn). reflexivity.
    + intros Hk. rewrite (get_value_absent _ _ Hk). reflexivity.
  - eexists. split; [reflexivity|]. repeat split.
Qed.

(** ** The catch-all [Packet] *)

(** [Packet.parse] checks no length: a frame of fewer than three bytes
    ends in the [IndexError] of the first missing byte. *)
Lemma Packet_parse_short (self : handler) (f : bytearray) :
  (length f < 3)%nat -> outcome (Packet.parse self f) = Raise IndexError.
Proof.
  intros Hlt. destruct f as [|b0 [|b1 [|b2 rest]]]; simpl in Hlt;
    [reflexivity..|lia].
Qed.

(** C7, as stated, fails: [Packet.parse] reads bytes 1 and 2 without a
    check, so on the one-byte frame 0x00 it raises [IndexError]. *)
Lemma Packet_parse_short_frame_raises :
  outcome (Packet.parse BasePacket.init [Byte.x00]) = Raise IndexError
  /\ ~ (forall (self : handler) (f : bytearray),
          f ≠ [] -> exists d, outcome (Packet.parse self f) = Ok d).
Proof.
  split; [reflexivity|].
  intros H. destruct (H BasePacket.init [Byte.x00]) as [d Hd]; discriminate.
Qed.

(** C7, amended. [Packet.can_handle] returns [True] on every frame, the
    empty and the malformed ones included. [Packet.parse] returns, on every
    frame of at least three bytes, the dictionary of exactly
    [packet_length], [packet_type], [packet_subtype], bytes 0 to 2, and
    [packet], the frame itself. On 0x04, 0x10, 0x02, 0xFF the dictionary
    holds 4, 0x10, 0x02 and the four bytes. *)
Theorem Packet_catch_all (self : handler) (f : bytearray) :
  outcome (Packet.can_handle self f) = Ok true
  /\ (forall b0 b1 b2,
        f !! 0%nat = Some b0 -> f !! 1%nat = Some b1 -> f !! 2%nat = Some b2 ->
        outcome (Packet.parse self f) =
          Ok (<["packet_length" := PyInt (byte_value b0)]>
              (<["packet_type" := PyInt (byte_value b1)]>
              (<["packet_subtype" := PyInt (byte_value b2)]>
              (<["packet" := PyBytes f]> ∅)))))
  /\ outcome (Packet.parse self [Byte.x04; Byte.x10; Byte.x02; Byte.xff]) =
       Ok (<["packet_length" := PyInt 4]>
           (<["packet_type" := PyInt 16]>
           (<["packet_subtype" := PyInt 2]>
           (<["packet" := PyBytes [Byte.x04; Byte.x10; Byte.x02; Byte.xff]]>
              ∅)))).
Proof.
  split; [reflexivity|]. split; [|reflexivity].
  intros b0 b1 b2 H0 H1 H2. unfold Packet.parse.
  rewrite (getitem_Some _ _ _ H0), bind_Ok, (getitem_Some _ _ _ H1), bind_Ok,
    (getitem_Some _ _ _ H2), bind_Ok.
  reflexivity.
Qed.

(** ** Loading *)

(** C8. When [load] returns normally, the object's [raw] is the frame
    given, and what [load] returns is what [parse] returned on that frame,
    which is also what [data] holds. *)
Theorem load_stores_raw (cls : PacketClass) (now : Z) (self : handler)
    (f : bytearray) (d : pydict) :
  outcome (BasePacket.load cls now self f).2 = Ok d ->
  raw (BasePacket.load cls now self f).1 = Some f
  /\ (BasePacket.load cls now self f).2
     = method_parse cls (set_raw (set_loaded_at self now) f) f
  /\ data (BasePacket.load cls now self f).1 = Some d
  /\ loaded_at (BasePacket.load cls now self f).1 = Some now.
Proof.
  unfold BasePacket.load, outcome.
  destruct (method_parse cls (set_raw (set_loaded_at self now) f) f)
    as [t [d'|e]]; cbn [fst snd]; [|discriminate].
  intros [= ->]. repeat split.
Qed.

Lemma load_stores_raw_witness :
  raw (BasePacket.load Packet_class 1400000000 BasePacket.init
         [Byte.x04; Byte.x10; Byte.x02; Byte.xff]).1
  = Some [Byte.x04; Byte.x10; Byte.x02; Byte.xff].
Proof.
  refine (proj1 (load_stores_raw Packet_class 1400000000 BasePacket.init
                   [Byte.x04; Byte.x10; Byte.x02; Byte.xff]
                   (<["packet_length" := PyInt 4]>
                    (<["packet_type" := PyInt 16]>
                    (<["packet_subtype" := PyInt 2]>
                    (<["packet" := PyBytes [Byte.x04; Byte.x10; Byte.x02; Byte.xff]]>
                       ∅)))) _)).
  reflexivity.
Defined.

Lemma load_result (cls : PacketClass) (now : Z) (self : handler) (f : bytearray) :
  (BasePacket.load cls now self f).2
  = method_parse cls (set_raw (set_loaded_at self now) f) f.
Proof.
  unfold BasePacket.load.
  now destruct (method_parse cls (set_raw (set_loaded_at self now) f) f)
    as [t [d|e]].
Qed.

Lemma load_tables (cls : PacketClass) (now : Z) (self : handler) (f : bytearray) :
  same_tables (BasePacket.load cls now self f).1 self.
Proof.
  unfold BasePacket.load.
  now destruct (method_parse cls (set_raw (set_loaded_at self now) f) f)
    as [t [d|e]].
Qed.

Lemma load_raw (cls : PacketClass) (now : Z) (self : handler) (f : bytearray) :
  raw (BasePacket.load cls now self f).1 = Some f.
Proof.
  unfold BasePacket.load.
  now destruct (method_parse cls (set_raw (set_loaded_at self now) f) f)
    as [t [d|e]].
Qed.

Lemma load_data (cls : PacketClass) (now : Z) (self : handler) (f : bytearray) :
  data (BasePacket.load cls now self f).1
  = match outcome (BasePacket.load cls now self f).2 with
    | Ok d => Some d
    | Raise _ => data self
    end.
Proof.
  unfold BasePacket.load, outcome.
  now destruct (method_parse cls (set_raw (set_loaded_at self now) f) f)
    as [t [d|e]].
Qed.

Lemma Packet_reads_tables_only : reads_tables_only Packet_class.
Proof. intros h1 h2 f _. reflexivity. Qed.

Lemma BasePacket_reads_tables_only : reads_tables_only BasePacket_class.
Proof. intros h1 h2 f _. reflexivity. Qed.

Lemma load_again (cls : PacketClass) (now1 now2 : Z) (h1 h2 : handler)
    (f : bytearray) :
  reads_tables_only cls -> same_tables h1 h2 ->
  (BasePacket.load cls now1 h1 f).2 = (BasePacket.load cls now2 h2 f).2.
Proof.
  intros Hcls Ht. rewrite !load_result. apply Hcls. exact Ht.
Qed.

(** C9. Loading a frame twice gives the same content. For a class whose
    [parse] reads only the tables of the object, two objects with the same
    tables return the same result for the same frame, whatever they loaded
    before and whenever they are called, and end with the same [raw] and,
    if they started with the same [data] or the call succeeds, the same
    [data]; a second [load] of the frame on the same object returns what
    the first returned and leaves every attribute but [loaded_at] as the
    first left it. The classes of this module, [Packet] among them, are
    such classes. *)
Theorem load_twice_same_content (now1 now2 : Z) (f : bytearray) :
  (forall cls : PacketClass, reads_tables_only cls ->
   forall h1 h2 : handler, same_tables h1 h2 ->
     (BasePacket.load cls now1 h1 f).2 = (BasePacket.load cls now2 h2 f).2
     /\ (data h1 = data h2
         \/ (exists d, outcome (BasePacket.load cls now1 h1 f).2 = Ok d) ->
         same_content (BasePacket.load cls now1 h1 f).1
                      (BasePacket.load cls now2 h2 f).1)
     /\ (BasePacket.load cls now2 (BasePacket.load cls now1 h1 f).1 f).2
        = (BasePacket.load cls now1 h1 f).2
     /\ same_content
          (BasePacket.load cls now2 (BasePacket.load cls now1 h1 f).1 f).1
          (BasePacket.load cls now1 h1 f).1)
  /\ reads_tables_only Packet_class
  /\ reads_tables_only BasePacket_class
  /\ reads_tables_only BasePacketHandler_class.
Proof.
  split; [|auto using Packet_reads_tables_only, BasePacket_reads_tables_only].
  intros cls Hcls h1 h2 Ht.
  pose proof (load_tables cls now1 h1 f) as Ht1.
  pose proof (load_tables cls now2 h2 f) as Ht2.
  pose proof (load_again cls now1 now2 h1 h2 f Hcls Ht) as E12.
  assert (E31 : (BasePacket.load cls now2 (BasePacket.load cls now1 h1 f).1 f).2
                = (BasePacket.load cls now1 h1 f).2).
  { symmetry. apply load_again; [exact Hcls|].
    destruct Ht1 as [E1 E2]. split; symmetry; assumption. }
  split; [exact E12|]. split; [|split; [exact E31|]].
  - intros Hd. unfold same_content. rewrite !load_raw, !load_data, <- E12.
    split; [|split; [reflexivity|]].
    + unfold same_tables in *. destruct Ht1 as [-> ->], Ht2 as [-> ->].
      exact Ht.
    + destruct (outcome (BasePacket.load cls now1 h1 f).2) as [d|e];
        [reflexivity|].
      destruct Hd as [Hd|[d Hd]]; [exact Hd|discriminate].
  - unfold same_content. rewrite !load_raw.
    split; [apply load_tables|]. split; [reflexivity|].
    rewrite (load_data cls now2), E31, (load_data cls now1).
    now destruct (outcome (BasePacket.load cls now1 h1 f).2).
Qed.

Lemma load_twice_same_content_witness :
  (BasePacket.load Packet_class 1400000000 (new_handler [] [])
     [Byte.x04; Byte.x10; Byte.x02; Byte.xff]).2
  = (BasePacket.load Packet_class 1400000060 (new_handler [] [])
       [Byte.x04; Byte.x10; Byte.x02; Byte.xff]).2.
Proof.
  refine (proj1 (proj1 (load_twice_same_content 1400000000 1400000060
                          [Byte.x04; Byte.x10; Byte.x02; Byte.xff])
                   Packet_class _ (new_handler [] []) (new_handler [] []) _)).
  - intros h1 h2 f _. reflexivity.
  - split; reflexivity.
Defined.

(** ** Byte reads of [validate_packet] *)

(** C10. On a non-empty frame every byte [validate_packet] reads is
    within the frame. Byte 0 is read first and in every case; bytes 1 and
    2 are read, in that order, only when the frame's length is its first
    byte plus one and at least 4. No [IndexError] is raised. *)
Theorem validate_packet_reads_in_bounds (self : handler) (f : bytearray) :
  f ≠ [] ->
  Forall (fun i => (i < length f)%nat)
         (reads (BasePacketHandler.validate_packet self f))
  /\ (reads (BasePacketHandler.validate_packet self f) = [0%nat]
      \/ reads (BasePacketHandler.validate_packet self f) = [0%nat; 1%nat]
      \/ reads (BasePacketHandler.validate_packet self f)
         = [0%nat; 1%nat; 2%nat])
  /\ (1%nat ∈ reads (BasePacketHandler.validate_packet self f)
      \/ 2%nat ∈ reads (BasePacketHandler.validate_packet self f) ->
      exists b0, f !! 0%nat = Some b0
                 /\ len f = byte_value b0 + 1 /\ 4 <= len f)
  /\ outcome (BasePacketHandler.validate_packet self f) ≠ Raise IndexError.
Proof.
  intros Hne. destruct f as [|b0 rest]; [contradiction|].
  assert (H0 : (b0 :: rest) !! 0%nat = Some b0) by reflexivity.
  destruct (Z.eq_dec (len (b0 :: rest)) (byte_value b0 + 1)) as [Hlen|Hlen].
  2:{ rewrite (validate_wrong_length _ _ _ H0 Hlen). cbn [reads outcome fst snd].
      split; [in_bounds|]. split; [auto|].
      split; [|discriminate].
      intros [H|H]; apply list_elem_of_singleton in H; discriminate. }
  destruct (Z.lt_ge_cases (byte_value b0 + 1) 4) as [Hs|Hs].
  { rewrite (validate_too_short _ _ _ H0 Hlen Hs). cbn [reads outcome fst snd].
    split; [in_bounds|]. split; [auto|].
    split; [|discriminate].
    intros [H|H]; apply list_elem_of_singleton in H; discriminate. }
  destruct (len_lookup (b0 :: rest) 1) as [b1 H1]; [lia|].
  destruct (len_lookup (b0 :: rest) 2) as [b2 H2]; [lia|].
  rewrite (validate_tables _ _ _ H0 b1 H1 Hlen) by lia. rewrite H2.
  assert (Hmin : 4 <= len (b0 :: rest)) by lia.
  assert (Hn : (3 < length (b0 :: rest))%nat) by (unfold len in Hmin; lia).
  repeat match goal with |- context [if ?c then _ else _] => destruct c end;
    cbn [reads outcome fst snd];
    (split; [in_bounds|]);
    (split; [auto|]);
    (split; [intros _; exists b0; auto|discriminate]).
Qed.

Lemma validate_packet_reads_in_bounds_witness :
  Forall (fun i => (i < 4)%nat)
         (reads (BasePacketHandler.validate_packet
                   (new_handler [(32, "Security1")] [])
                   [Byte.x03; Byte.x20; Byte.x02; Byte.xff])).
Proof.
  refine (proj1 (validate_packet_reads_in_bounds
                   (new_handler [(32, "Security1")] [])
                   [Byte.x03; Byte.x20; Byte.x02; Byte.xff] _)).
  discriminate.
Defined.

(** * Further properties *)

(** ** What [validate_packet] accepts *)

(** A frame [validate_packet] accepts has passed all four checks. *)
Lemma validate_packet_Ok_inv (self : handler) (f : bytearray) :
  outcome (BasePacketHandler.validate_packet self f) = Ok true ->
  exists b0 b1 b2,
    f !! 0%nat = Some b0 /\ f !! 1%nat = Some b1 /\ f !! 2%nat = Some b2
    /\ len f = byte_value b0 + 1 /\ 4 <= len f
    /\ (PACKET_TYPES self = [] \/ byte_value b1 ∈ dict_keys (PACKET_TYPES self))
    /\ (PACKET_SUBTYPES self = []
        \/ byte_value b2 ∈ dict_keys (PACKET_SUBTYPES self)).
Proof.
  destruct f as [|b0 rest]; [discriminate|].
  assert (H0 : (b0 :: rest) !! 0%nat = Some b0) by reflexivity.
  destruct (Z.eq_dec (len (b0 :: rest)) (byte_value b0 + 1)) as [Hlen|Hlen];
    [|rewrite (validate_wrong_length _ _ _ H0 Hlen); discriminate].
  destruct (Z.lt_ge_cases (byte_value b0 + 1) 4) as [Hs|Hs];
    [rewrite (validate_too_short _ _ _ H0 Hlen Hs); discriminate|].
  destruct (len_lookup (b0 :: rest) 1) as [b1 H1]; [lia|].
  destruct (len_lookup (b0 :: rest) 2) as [b2 H2]; [lia|].
  rewrite (validate_tables _ _ _ H0 b1 H1 Hlen) by lia. rewrite H2.
  destruct (dict_truthy (PACKET_TYPES self)) eqn:Et;
    destruct (dict_contains (byte_value b1) (PACKET_TYPES self)) eqn:Ec;
    cbn [andb negb]; try discriminate;
    (destruct (dict_truthy (PACKET_SUBTYPES self)) eqn:Est;
     destruct (dict_contains (byte_value b2) (PACKET_SUBTYPES self)) eqn:Esc;
     cbn [andb negb]; try discriminate);
    intros _; exists b0, b1, b2;
    (repeat split; [assumption|assumption|lia|..]);
    try (left; now destruct (PACKET_TYPES self));
    try (left; now destruct (PACKET_SUBTYPES self));
    try (right; now apply dict_contains_keys).
Qed.

(** X1. [can_handle] returns [True] exactly on the frames that pass the
    four checks: the length is the first byte plus one and at least 4,
    the type byte is a key of the type table or that table is empty, and
    the subtype byte is a key of the subtype table or that table is
    empty. *)
Theorem can_handle_true_iff (self : handler) (f : bytearray) :
  outcome (BasePacketHandler.can_handle self f) = Ok true <->
  exists b0 b1 b2,
    f !! 0%nat = Some b0 /\ f !! 1%nat = Some b1 /\ f !! 2%nat = Some b2
    /\ len f = byte_value b0 + 1 /\ 4 <= len f
    /\ (PACKET_TYPES self = [] \/ byte_value b1 ∈ dict_keys (PACKET_TYPES self))
    /\ (PACKET_SUBTYPES self = []
        \/ byte_value b2 ∈ dict_keys (PACKET_SUBTYPES self)).
Proof.
  split.
  - intros H. apply validate_packet_Ok_inv.
    unfold BasePacketHandler.can_handle, except_RFXComException, outcome in *.
    destruct (BasePacketHandler.validate_packet self f) as [t [b|e]];
      cbn [fst snd] in *; [exact H|].
    destruct (is_RFXComException e); discriminate.
  - intros (b0 & b1 & b2 & H0 & H1 & H2 & Hlen & Hmin & Ht & Hs).
    unfold BasePacketHandler.can_handle.
    rewrite (validate_tables _ _ _ H0 b1 H1 Hlen Hmin), H2.
    assert (dict_truthy (PACKET_TYPES self)
            && negb (dict_contains (byte_value b1) (PACKET_TYPES self)) = false)
      as ->.
    { destruct Ht as [->|Ht]; [reflexivity|].
      apply dict_contains_keys in Ht. rewrite Ht. apply andb_false_r. }
    assert (dict_truthy (PACKET_SUBTYPES self)
            && negb (dict_contains (byte_value b2) (PACKET_SUBTYPES self)) = false)
      as ->.
    { destruct Hs as [->|Hs]; [reflexivity|].
      apply dict_contains_keys in Hs. rewrite Hs. apply andb_false_r. }
    reflexivity.
Qed.

(** X2. An accepted frame has between 4 and 256 bytes: a frame of more
    than 256 bytes cannot match its length byte and is always refused
    with [InvalidPacketLength], whatever the tables. *)
Theorem validate_packet_length_bounds (self : handler) (f : bytearray) :
  (outcome (BasePacketHandler.validate_packet self f) = Ok true ->
   4 <= len f <= 256)
  /\ (256 < len f ->
      exists msg, outcome (BasePacketHandler.validate_packet self f)
                  = Raise (InvalidPacketLength msg)).
Proof.
  split.
  - intros H. apply validate_packet_Ok_inv in H.
    destruct H as (b0 & _ & _ & _ & _ & _ & Hlen & Hmin & _).
    pose proof (byte_value_range b0). lia.
  - intros Hbig. destruct f as [|b0 rest]; [unfold len in Hbig; simpl in Hbig; lia|].
    assert (H0 : (b0 :: rest) !! 0%nat = Some b0) by reflexivity.
    pose proof (byte_value_range b0).
    rewrite (validate_wrong_length _ _ _ H0) by lia. eauto.
Qed.

(** [validate_packet] reads nothing of the object but its tables. *)
Lemma validate_packet_same_tables (h1 h2 : handler) (f : bytearray) :
  same_tables h1 h2 ->
  BasePacketHandler.validate_packet h1 f = BasePacketHandler.validate_packet h2 f.
Proof.
  intros [Ht Hs]. unfold BasePacketHandler.validate_packet.
  rewrite Ht, Hs. reflexivity.
Qed.

(** X3. Validation looks at the length of the frame and at its first
    three bytes, nothing else: two frames of the same length that agree
    on bytes 0 to 2 get the same verdict, reads and message included.
    The sequence number and the payload play no part. *)
Theorem validate_packet_header_only (self : handler) (f g : bytearray) :
  length f = length g -> take 3 f = take 3 g ->
  BasePacketHandler.validate_packet self f
  = BasePacketHandler.validate_packet self g
  /\ BasePacketHandler.can_handle self f = BasePacketHandler.can_handle self g.
Proof.
  intros Hlen Htake.
  assert (Hi : forall i, (i < 3)%nat -> f !! i = g !! i).
  { intros i Hi. rewrite <- (lookup_take_lt f 3 i), <- (lookup_take_lt g 3 i)
      by exact Hi. now rewrite Htake. }
  assert (E : BasePacketHandler.validate_packet self f
              = BasePacketHandler.validate_packet self g).
  { unfold BasePacketHandler.validate_packet, getitem, len.
    rewrite Hlen, (Hi 0%nat), (Hi 1%nat), (Hi 2%nat) by lia. reflexivity. }
  split; [exact E|]. unfold BasePacketHandler.can_handle. now rewrite E.
Qed.

Lemma validate_packet_header_only_witness :
  BasePacketHandler.validate_packet (new_handler [(32, "Security1")] [])
    [Byte.x04; Byte.x20; Byte.x01; Byte.x05; Byte.x00]
  = BasePacketHandler.validate_packet (new_handler [(32, "Security1")] [])
      [Byte.x04; Byte.x20; Byte.x01; Byte.xff; Byte.x7b].
Proof.
  refine (proj1 (validate_packet_header_only
                   (new_handler [(32, "Security1")] [])
                   [Byte.x04; Byte.x20; Byte.x01; Byte.x05; Byte.x00]
                   [Byte.x04; Byte.x20; Byte.x01; Byte.xff; Byte.x7b] _ _));
    reflexivity.
Defined.

(** ** Frames too short for the parsers *)

(** X4. [parse_header_part] returns a dictionary exactly on the frames of
    at least four bytes, having read bytes 0 to 3. On a shorter frame it
    raises [IndexError] at the first byte that is missing, after reading
    the bytes before it. *)
Theorem parse_header_part_length (self : handler) (f : bytearray) :
  ((exists d, outcome (BasePacket.parse_header_part self f) = Ok d) <->
   (4 <= length f)%nat)
  /\ ((4 <= length f)%nat ->
      reads (BasePacket.parse_header_part self f) = seq 0 4)
  /\ ((length f < 4)%nat ->
      BasePacket.parse_header_part self f
      = (seq 0 (S (length f)), Raise IndexError)).
Proof.
  destruct f as [|b0 [|b1 [|b2 [|b3 rest]]]]; cbn [length].
  1-4: split; [split; [intros [d Hd]; discriminate|lia]|];
       split; [lia|intros _; reflexivity].
  split; [split; [lia|intros _; eexists; reflexivity]|].
  split; [intros _; reflexivity|lia].
Qed.

(** X5. [Packet.parse] returns a dictionary exactly on the frames of at
    least three bytes; on a shorter frame, the empty one included, it
    raises [IndexError] at the first byte that is missing. *)
Theorem Packet_parse_length (self : handler) (f : bytearray) :
  ((exists d, outcome (Packet.parse self f) = Ok d) <-> (3 <= length f)%nat)
  /\ ((3 <= length f)%nat -> reads (Packet.parse self f) = seq 0 3)
  /\ ((length f < 3)%nat ->
      Packet.parse self f = (seq 0 (S (length f)), Raise IndexError)).
Proof.
  destruct f as [|b0 [|b1 [|b2 rest]]]; cbn [length].
  1-3: split; [split; [intros [d Hd]; discriminate|lia]|];
       split; [lia|intros _; reflexivity].
  split; [split; [lia|intros _; eexists; reflexivity]|].
  split; [intros _; reflexivity|lia].
Qed.

(** ** Validation, then parsing *)




(** X7. Where [parse_header_part] succeeds, [Packet.parse] succeeds too,
    on any object, and gives the same [packet_length], [packet_type] and
    [packet_subtype]. *)
Theorem Packet_parse_agrees_with_header (self other : handler)
    (f : bytearray) (d : pydict) :
  outcome (BasePacket.parse_header_part self f) = Ok d ->
  exists d' : pydict,
    outcome (Packet.parse other f) = Ok d'
    /\ d' !! "packet_length" = d !! "packet_length"
    /\ d' !! "packet_type" = d !! "packet_type"
    /\ d' !! "packet_subtype" = d !! "packet_subtype"
    /\ d' !! "packet" = Some (PyBytes f).
Proof.
  destruct f as [|b0 [|b1 [|b2 [|b3 rest]]]]; try discriminate.
  intros [= <-]. eexists. split; [reflexivity|]. repeat split.
Qed.

Lemma Packet_parse_agrees_with_header_witness :
  exists d' : pydict,
    outcome (Packet.parse BasePacket.init
               [Byte.x03; Byte.x20; Byte.x01; Byte.x05]) = Ok d'
    /\ d' !! "packet_type" = Some (PyInt 32).
Proof.
  destruct (Packet_parse_agrees_with_header
              (new_handler [(32, "Security1")] []) BasePacket.init
              [Byte.x03; Byte.x20; Byte.x01; Byte.x05]
              (<["packet_length" := PyInt 3]>
               (<["packet_type" := PyInt 32]>
               (<["packet_type_name" := PyStr "Security1"]>
               (<["packet_subtype" := PyInt 1]>
               (<["packet_subtype_name" := PyNone]>
               (<["sequence_number" := PyInt 5]> ∅)))))))
    as (d' & Hd' & _ & Ht & _).
  - reflexivity.
  - exists d'. split; [exact Hd'|]. rewrite Ht. reflexivity.
Defined.

(** ** [load] when [parse] fails, and after *)

(** X8. When [parse] raises, [load] raises the same exception after the
    same reads, and the object is left half updated: [raw] is the new
    frame and [loaded_at] the new time, while [data] is still what it was
    before the call. The tables are untouched. *)
Theorem load_failure (cls : PacketClass) (now : Z) (self : handler)
    (f : bytearray) (e : exn) :
  outcome (method_parse cls (set_raw (set_loaded_at self now) f) f) = Raise e ->
  outcome (BasePacket.load cls now self f).2 = Raise e
  /\ raw (BasePacket.load cls now self f).1 = Some f
  /\ loaded_at (BasePacket.load cls now self f).1 = Some now
  /\ data (BasePacket.load cls now self f).1 = data self
  /\ same_tables (BasePacket.load cls now self f).1 self.
Proof.
  unfold BasePacket.load, outcome.
  destruct (method_parse cls (set_raw (set_loaded_at self now) f) f)
    as [t [d|e']]; cbn [fst snd]; [discriminate|].
  intros [= ->]. repeat split.
Qed.

Lemma load_failure_witness :
  outcome (BasePacket.load Packet_class 1400000000 BasePacket.init
             [Byte.x01; Byte.x20]).2 = Raise IndexError
  /\ raw (BasePacket.load Packet_class 1400000000 BasePacket.init
            [Byte.x01; Byte.x20]).1 = Some [Byte.x01; Byte.x20].
Proof.
  destruct (load_failure Packet_class 1400000000 BasePacket.init
              [Byte.x01; Byte.x20] IndexError) as (Ho & Hr & _).
  - reflexivity.
  - split; [exact Ho|exact Hr].
Defined.

(** The base classes cannot load: with the stub [parse] of
    [BasePacket], which [BasePacketHandler] inherits, [load] raises
    [NotImplementedError] on every frame, those that [can_handle] accepts
    included, without reading a byte; [data] is never set. *)
Lemma load_base_class_not_implemented (now : Z) (self : handler)
    (f : bytearray) :
  BasePacket.load BasePacket_class now self f
  = (set_raw (set_loaded_at self now) f, ([], Raise NotImplementedError))
  /\ BasePacket.load BasePacketHandler_class now self f
     = (set_raw (set_loaded_at self now) f, ([], Raise NotImplementedError))
  /\ data (BasePacket.load BasePacketHandler_class now BasePacket.init f).1
     = None.
Proof. repeat split. Qed.

(** X9. [load] changes nothing of what a handler accepts: after a
    [load] of any frame, successful or not, [validate_packet],
    [can_handle] and [parse_header_part] answer on every frame as they
    did before. *)
Theorem load_keeps_validation (cls : PacketClass) (now : Z) (self : handler)
    (f g : bytearray) :
  BasePacketHandler.validate_packet (BasePacket.load cls now self f).1 g
  = BasePacketHandler.validate_packet self g
  /\ BasePacketHandler.can_handle (BasePacket.load cls now self f).1 g
     = BasePacketHandler.can_handle self g
  /\ BasePacket.parse_header_part (BasePacket.load cls now self f).1 g
     = BasePacket.parse_header_part self g.
Proof.
  pose proof (load_tables cls now self f) as Ht.
  pose proof (validate_packet_same_tables _ _ g Ht) as E.
  split; [exact E|]. split.
  - unfold BasePacketHandler.can_handle. now rewrite E.
  - destruct Ht as [Ht Hs]. unfold BasePacket.parse_header_part.
    now rewrite Ht, Hs.
Qed.

(** X10. Loading a frame of at least three bytes with [Packet] succeeds
    on any object: [load] returns the dictionary and keeps it in [data],
    its [packet] entry is the very frame kept in [raw], and its
    [packet_length] entry is the frame's first byte whether or not that
    byte matches the frame's length. *)
Theorem Packet_load (now : Z) (self : handler) (b0 b1 b2 : Byte.byte)
    (rest : bytearray) :
  exists d : pydict,
    outcome (BasePacket.load Packet_class now self (b0 :: b1 :: b2 :: rest)).2
    = Ok d
    /\ data (BasePacket.load Packet_class now self (b0 :: b1 :: b2 :: rest)).1
       = Some d
    /\ (PyBytes <$> raw (BasePacket.load Packet_class now self
                           (b0 :: b1 :: b2 :: rest)).1) = d !! "packet"
    /\ d !! "packet_length" = Some (PyInt (byte_value b0))
    /\ dom d = {[ "packet_length"; "packet_type"; "packet_subtype"; "packet" ]}.
Proof.
  eexists. split; [reflexivity|]. repeat split.
Qed.

(** ** [dump_hex] *)

Lemma upper_app (s1 s2 : string) : upper (s1 +:+ s2) = upper s1 +:+ upper s2.
Proof. induction s1 as [|c s1 IH]; simpl; [reflexivity|now rewrite IH]. Qed.

Lemma upper_ascii_idemp (c : Ascii.ascii) :
  upper_ascii (upper_ascii c) = upper_ascii c.
Proof. destruct c as [[] [] [] [] [] [] [] []]; reflexivity. Qed.

Lemma upper_idemp (s : string) : upper (upper s) = upper s.
Proof.
  induction s as [|c s IH]; simpl; [reflexivity|].
  now rewrite upper_ascii_idemp, IH.
Qed.

Lemma join_empty_cons (x : string) (xs : list string) :
  String.concat "" (x :: xs) = x +:+ String.concat "" xs.
Proof.
  destruct xs as [|y ys]; [|reflexivity].
  cbn [String.concat]. induction x as [|c x IH]; [reflexivity|].
  change (String c x = String c (x +:+ "")). f_equal. exact IH.
Qed.

Lemma append_two (c1 c2 : Ascii.ascii) (s : string) :
  String c1 (String c2 EmptyString) +:+ s = String c1 (String c2 s).
Proof. reflexivity. Qed.

(** A byte is written as two digits, from which it can be read back. *)
Lemma format_02x_byte (b : Byte.byte) :
  exists c1 c2,
    format_02x (byte_value b) = String c1 (String c2 EmptyString)
    /\ byte_of_digits (upper_ascii c1) (upper_ascii c2) = Some b.
Proof. destruct b; do 2 eexists; split; reflexivity. Qed.

(** The digits [dump_hex] writes after the prefix. *)
Lemma dump_hex_digits (self : handler) (f : bytearray) :
  exists digits,
    BasePacket.dump_hex self f = String "0" (String "x" digits)
    /\ String.length digits = (2 * length f)%nat
    /\ upper digits = digits
    /\ bytes_of_digits digits = Some f.
Proof.
  unfold BasePacket.dump_hex.
  exists (upper (String.concat ""
                   (map (fun x => format_02x (byte_value x)) f))).
  split; [reflexivity|]. split; [|split; [apply upper_idemp|]].
  - induction f as [|b f IH]; [reflexivity|].
    cbn [map]. rewrite join_empty_cons, upper_app.
    destruct (format_02x_byte b) as (c1 & c2 & -> & _).
    cbn [upper]. rewrite append_two. cbn [String.length length].
    rewrite IH. lia.
  - induction f as [|b f IH]; [reflexivity|].
    cbn [map]. rewrite join_empty_cons, upper_app.
    destruct (format_02x_byte b) as (c1 & c2 & -> & Hb).
    cbn [upper]. rewrite append_two. cbn [bytes_of_digits].
    now rewrite Hb, IH.
Qed.

Lemma read_hex_dump_hex (self : handler) (f : bytearray) :
  read_hex (BasePacket.dump_hex self f) = Some f.
Proof.
  destruct (dump_hex_digits self f) as (digits & -> & _ & _ & Hd). exact Hd.
Qed.

(** X11. [dump_hex] writes the lower-case prefix [0x] and then two
    characters for each byte, none of them a lower-case letter: the
    result has twice the frame's length plus two characters, and the
    empty frame gives the bare prefix. *)
Theorem dump_hex_shape (self : handler) (f : bytearray) :
  exists digits,
    BasePacket.dump_hex self f = "0x" +:+ digits
    /\ String.length digits = (2 * length f)%nat
    /\ upper digits = digits
    /\ String.length (BasePacket.dump_hex self f) = (2 + 2 * length f)%nat
    /\ (f = [] -> BasePacket.dump_hex self f = "0x").
Proof.
  destruct (dump_hex_digits self f) as (digits & E & Hl & Hu & _).
  exists digits. rewrite E. cbn [String.length]. repeat split; try assumption.
  - lia.
  - intros ->. destruct digits; [reflexivity|discriminate].
Qed.

(** X12. [dump_hex] loses nothing: two frames with the same dump are the
    same frame, whatever objects wrote the dumps. *)
Theorem dump_hex_injective (self other : handler) (f g : bytearray) :
  BasePacket.dump_hex self f = BasePacket.dump_hex other g -> f = g.
Proof.
  intros E. pose proof (read_hex_dump_hex self f) as Hf.
  rewrite E, read_hex_dump_hex in Hf. now injection Hf.
Qed.

Lemma dump_hex_injective_witness :
  [Byte.x0a; Byte.xff] = [Byte.x0a; Byte.xff].
Proof.
  apply (dump_hex_injective BasePacket.init (new_handler [(32, "Security1")] [])
           [Byte.x0a; Byte.xff] [Byte.x0a; Byte.xff]).
  reflexivity.
Defined.
